(** * Oxide plugin editor: a shallow embedding of Source/PluginEditor.{h,cpp}

    The editor wires fifteen parameter relays and attachments to a
    WebBrowserComponent, feeds a 60 Hz visualizer timer, serves the web UI
    through a resource provider and bridges the license-activation SDK. *)

From Stdlib Require Import String Ascii List Bool ZArith Arith Lia.
From Stdlib Require Import Numbers.DecimalString.
Set Warnings "-register-all".
Import ListNotations.
Open Scope string_scope.
Open Scope list_scope.

(** ** Values exchanged with the browser (juce::var) *)

(** The subset of [juce::var] the editor uses.  Floating-point metering
    values are carried as [Z]: the editor only copies them into payloads. *)
Inductive var : Type :=
| VVoid
| VUndefined
| VBool (b : bool)
| VNum (z : Z)
| VStr (s : string)
| VObj (props : list (string * var))
| VArray (items : list var).

(** [DynamicObject] property lookup (names are unique in a NamedValueSet). *)
Fixpoint assoc_prop (name : string) (props : list (string * var)) : option var :=
  match props with
  | [] => None
  | (k, v) :: rest => if String.eqb k name then Some v else assoc_prop name rest
  end.

Definition lookupProperty (v : var) (name : string) : option var :=
  match v with
  | VObj props => assoc_prop name props
  | _ => None
  end.

(** [var::getProperty (name, defaultReturnValue)]: the default is returned
    when [v] is not an object or has no such property. *)
Definition getProperty (v : var) (name : string) (dflt : var) : var :=
  match lookupProperty v name with
  | Some x => x
  | None => dflt
  end.

(** [var::toString].  JUCE appends the object's address to "Object 0x";
    the address is left out of the model. *)
Definition var_toString (v : var) : string :=
  match v with
  | VVoid => ""
  | VUndefined => "undefined"
  | VBool b => if b then "1" else "0"
  | VNum z => NilEmpty.string_of_int (Z.to_int z)
  | VStr s => s
  | VObj _ => "Object 0x"
  | VArray _ => "[Array]"
  end.

(** An event sent with [emitEventIfBrowserIsVisible]. *)
Record Event := mkEvent { ev_name : string; ev_payload : var }.

(** ** Parameters, relays and attachments *)

(** Modelled from the spec: ParameterIDs.h is not part of the source; each
    [ParameterIDs::...] constant is a parameter identified by its own stable
    key. *)
Inductive ParamID : Type :=
| bitcrush | downsample | noise | crackle | wobble | dropout | saturation
| age | filterCutoff | filterRes | filterDrive | mode | mix | output | bypass.

Definition ParamID_eq_dec (a b : ParamID) : {a = b} + {a <> b}.
Proof. decide equality. Defined.

Definition allParamIDs : list ParamID :=
  [bitcrush; downsample; noise; crackle; wobble; dropout; saturation;
   age; filterCutoff; filterRes; filterDrive; mode; mix; output; bypass].

(** [juce::WebSliderRelay] (continuous) or [juce::WebToggleButtonRelay]. *)
Inductive RelayKind := SliderRelay | ToggleRelay.

(** [juce::WebSliderParameterAttachment] or
    [juce::WebToggleButtonParameterAttachment]. *)
Inductive AttachmentKind := SliderAttachment | ToggleAttachment.

(** A relay: the editor member holding it, the key it was built with and
    its class. *)
Record Relay := mkRelay { r_field : string; r_key : ParamID; r_kind : RelayKind }.

(** An attachment: the editor member holding it, the parameter fetched with
    [apvts.getParameter], the relay member it is bound to, and its class. *)
Record Attachment := mkAttachment {
  a_field : string; a_param : ParamID; a_relay : string; a_kind : AttachmentKind }.

(** ** Construction of the editor, as a trace of steps *)

Inductive CtorStep : Type :=
| MakeRelay (r : Relay)                 (* xRelay = std::make_unique<...>(key) *)
| RegisterRelay (field : string)        (* Options::withOptionsFrom applied to xRelay *)
| RegisterListener (event : string)     (* Options::withEventListener *)
| MakeWebView                           (* webView = std::make_unique<...>(options) *)
| MakeAttachment (a : Attachment)       (* xAttachment = std::make_unique<...>(...) *)
| StartTimer.                           (* visualizerTimer.startTimerHz (60) *)

Definition CtorStep_eq_dec (x y : CtorStep) : {x = y} + {x <> y}.
Proof.
  repeat decide equality; try apply string_dec; try apply ParamID_eq_dec.
Defined.

(** Lines "Create relays BEFORE WebBrowserComponent" of the constructor. *)
Definition ctor_relays : list CtorStep :=
  [ MakeRelay (mkRelay "bitcrushRelay" bitcrush SliderRelay);
    MakeRelay (mkRelay "downsampleRelay" downsample SliderRelay);
    MakeRelay (mkRelay "noiseRelay" noise SliderRelay);
    MakeRelay (mkRelay "crackleRelay" crackle SliderRelay);
    MakeRelay (mkRelay "wobbleRelay" wobble SliderRelay);
    MakeRelay (mkRelay "dropoutRelay" dropout SliderRelay);
    MakeRelay (mkRelay "saturationRelay" saturation SliderRelay);
    MakeRelay (mkRelay "ageRelay" age SliderRelay);
    MakeRelay (mkRelay "filterCutoffRelay" filterCutoff SliderRelay);
    MakeRelay (mkRelay "filterResRelay" filterRes SliderRelay);
    MakeRelay (mkRelay "filterDriveRelay" filterDrive SliderRelay);
    MakeRelay (mkRelay "modeRelay" mode SliderRelay);
    MakeRelay (mkRelay "mixRelay" mix SliderRelay);
    MakeRelay (mkRelay "outputRelay" output SliderRelay);
    MakeRelay (mkRelay "bypassRelay" bypass ToggleRelay) ].

(** [setupWebView]: the Options chain, then the component itself.  The two
    license listeners are compiled in with BEATCONNECT_ACTIVATION_ENABLED. *)
Definition setupWebView_steps : list CtorStep :=
  [ RegisterRelay "bitcrushRelay";
    RegisterRelay "downsampleRelay";
    RegisterRelay "noiseRelay";
    RegisterRelay "crackleRelay";
    RegisterRelay "wobbleRelay";
    RegisterRelay "dropoutRelay";
    RegisterRelay "saturationRelay";
    RegisterRelay "ageRelay";
    RegisterRelay "filterCutoffRelay";
    RegisterRelay "filterResRelay";
    RegisterRelay "filterDriveRelay";
    RegisterRelay "modeRelay";
    RegisterRelay "mixRelay";
    RegisterRelay "outputRelay";
    RegisterRelay "bypassRelay";
    RegisterListener "getActivationStatus";
    RegisterListener "activateLicense";
    RegisterListener "deactivateLicense";
    MakeWebView ].

(** Lines "Create attachments AFTER WebBrowserComponent". *)
Definition ctor_attachments : list CtorStep :=
  [ MakeAttachment (mkAttachment "bitcrushAttachment" bitcrush "bitcrushRelay" SliderAttachment);
    MakeAttachment (mkAttachment "downsampleAttachment" downsample "downsampleRelay" SliderAttachment);
    MakeAttachment (mkAttachment "noiseAttachment" noise "noiseRelay" SliderAttachment);
    MakeAttachment (mkAttachment "crackleAttachment" crackle "crackleRelay" SliderAttachment);
    MakeAttachment (mkAttachment "wobbleAttachment" wobble "wobbleRelay" SliderAttachment);
    MakeAttachment (mkAttachment "dropoutAttachment" dropout "dropoutRelay" SliderAttachment);
    MakeAttachment (mkAttachment "saturationAttachment" saturation "saturationRelay" SliderAttachment);
    MakeAttachment (mkAttachment "ageAttachment" age "ageRelay" SliderAttachment);
    MakeAttachment (mkAttachment "filterCutoffAttachment" filterCutoff "filterCutoffRelay" SliderAttachment);
    MakeAttachment (mkAttachment "filterResAttachment" filterRes "filterResRelay" SliderAttachment);
    MakeAttachment (mkAttachment "filterDriveAttachment" filterDrive "filterDriveRelay" SliderAttachment);
    MakeAttachment (mkAttachment "modeAttachment" mode "modeRelay" SliderAttachment);
    MakeAttachment (mkAttachment "mixAttachment" mix "mixRelay" SliderAttachment);
    MakeAttachment (mkAttachment "outputAttachment" output "outputRelay" SliderAttachment);
    MakeAttachment (mkAttachment "bypassAttachment" bypass "bypassRelay" ToggleAttachment) ].

(** The whole body of [OxideAudioProcessorEditor::OxideAudioProcessorEditor]. *)
Definition ctor_trace : list CtorStep :=
  ctor_relays ++ setupWebView_steps ++ ctor_attachments ++ [StartTimer].

(** ** Collaborators outside the source *)

(** [beatconnect::ActivationInfo] (license-activation SDK). *)
Record ActivationInfo := mkActivationInfo {
  activationCode : string; machineId : string; activatedAt : string;
  currentActivations : Z; maxActivations : Z; isValid : bool }.

(** Modelled from the spec: [beatconnect::ActivationStatus] and
    [statusToString] belong to the external activation SDK; the spec names
    the outcomes success, failure, invalid code and network error, and the
    status string "Invalid".  The editor itself only tests for [Valid]. *)
Inductive ActivationStatus := Valid | Invalid | Failed | NetworkError.

Definition statusToString (s : ActivationStatus) : string :=
  match s with
  | Valid => "Valid"
  | Invalid => "Invalid"
  | Failed => "Failed"
  | NetworkError => "NetworkError"
  end.

Definition isValidStatus (s : ActivationStatus) : bool :=
  match s with Valid => true | _ => false end.

(** The read side of the activation subsystem the editor queries. *)
Record Activation := mkActivation {
  isConfigured : bool; isActivated : bool; getActivationInfo : ActivationInfo }.

(** The read-only accessors of [OxideAudioProcessor] used by the editor.
    [getActivation] is a nullable pointer. *)
Record Processor := mkProcessor {
  getCurrentRMS : Z; getCurrentPeak : Z; getWobblePhase : Z;
  getCrackleActivity : Z; getCurrentMode : var; isBypassed : bool;
  getDegradationAmount : Z;
  getActivation : option Activation;
  hasActivationEnabled : bool }.

(** ** Editor state *)

(** The browser component, as far as emission is concerned. *)
Record View := mkView { visible : bool }.

(** Closures posted with [juce::MessageManager::callAsync]. *)
Inductive Task :=
| TActivationResult (s : ActivationStatus) (info : ActivationInfo)
| TDeactivationResult (s : ActivationStatus).

(** Calls made into the activation subsystem. *)
Inductive ActCall := CallActivate (code : string) | CallDeactivate.

Record State := mkState {
  relays : list Relay;
  optionsRelays : list string;     (* relays handed to Options::withOptionsFrom *)
  listeners : list string;         (* Options::withEventListener names *)
  webView : option View;
  attachments : list Attachment;
  timerRunning : bool;
  events : list Event;             (* events delivered to the page, oldest first *)
  msgQueue : list Task;            (* message-thread queue *)
  actCalls : list ActCall }.

Definition initState : State := mkState [] [] [] None [] false [] [] [].

Definition set_webView (st : State) (v : option View) : State :=
  mkState (relays st) (optionsRelays st) (listeners st) v (attachments st)
    (timerRunning st) (events st) (msgQueue st) (actCalls st).

Definition set_timer (st : State) (b : bool) : State :=
  mkState (relays st) (optionsRelays st) (listeners st) (webView st) (attachments st)
    b (events st) (msgQueue st) (actCalls st).

Definition set_events (st : State) (es : list Event) : State :=
  mkState (relays st) (optionsRelays st) (listeners st) (webView st) (attachments st)
    (timerRunning st) es (msgQueue st) (actCalls st).

Definition set_queue (st : State) (q : list Task) : State :=
  mkState (relays st) (optionsRelays st) (listeners st) (webView st) (attachments st)
    (timerRunning st) (events st) q (actCalls st).

Definition log_call (st : State) (c : ActCall) : State :=
  mkState (relays st) (optionsRelays st) (listeners st) (webView st) (attachments st)
    (timerRunning st) (events st) (msgQueue st) (actCalls st ++ [c]).

(** One constructor step on the editor state.  [addAndMakeVisible] shows
    the new component. *)
Definition apply_ctor_step (st : State) (step : CtorStep) : State :=
  match step with
  | MakeRelay r =>
      mkState (relays st ++ [r]) (optionsRelays st) (listeners st) (webView st)
        (attachments st) (timerRunning st) (events st) (msgQueue st) (actCalls st)
  | RegisterRelay f =>
      mkState (relays st) (optionsRelays st ++ [f]) (listeners st) (webView st)
        (attachments st) (timerRunning st) (events st) (msgQueue st) (actCalls st)
  | RegisterListener e =>
      mkState (relays st) (optionsRelays st) (listeners st ++ [e]) (webView st)
        (attachments st) (timerRunning st) (events st) (msgQueue st) (actCalls st)
  | MakeWebView => set_webView st (Some (mkView true))
  | MakeAttachment a =>
      mkState (relays st) (optionsRelays st) (listeners st) (webView st)
        (attachments st ++ [a]) (timerRunning st) (events st) (msgQueue st) (actCalls st)
  | StartTimer => set_timer st true
  end.

(** The editor right after its constructor returns. *)
Definition construct : State := fold_left apply_ctor_step ctor_trace initState.

(** ** Emission *)

(** [webView->emitEventIfBrowserIsVisible (name, payload)]: delivered only
    while the page is visible.  The source dereferences [webView] without a
    null check; [webView] is set by the constructor before any listener,
    tick or task can run, so the [None] branch is not reached from
    [construct]. *)
Definition emitEventIfBrowserIsVisible (st : State) (name : string) (payload : var) : State :=
  match webView st with
  | Some v => if visible v then set_events st (events st ++ [mkEvent name payload]) else st
  | None => st
  end.

(** ** The visualizer timer *)

(** The processor accessors read by a tick, in call order. *)
Inductive MeterRead :=
| ReadRMS | ReadPeak | ReadWobblePhase | ReadCrackleActivity
| ReadMode | ReadBypassed | ReadDegradation.

(** [VisualizerTimer::timerCallback]: returns the accessors it called and
    the new state. *)
Definition timerCallback (p : Processor) (st : State) : list MeterRead * State :=
  match webView st with
  | None => ([], st)
  | Some _ =>
      let data := VObj [ ("rms", VNum (getCurrentRMS p));
                         ("peak", VNum (getCurrentPeak p));
                         ("wobblePhase", VNum (getWobblePhase p));
                         ("crackleActivity", VNum (getCrackleActivity p));
                         ("mode", getCurrentMode p);
                         ("bypassed", VBool (isBypassed p));
                         ("degradation", VNum (getDegradationAmount p)) ] in
      ([ReadRMS; ReadPeak; ReadWobblePhase; ReadCrackleActivity;
        ReadMode; ReadBypassed; ReadDegradation],
       emitEventIfBrowserIsVisible st "visualizerData" data)
  end.

(** ** License activation *)

Definition info_to_var (info : ActivationInfo) : var :=
  VObj [ ("activationCode", VStr (activationCode info));
         ("machineId", VStr (machineId info));
         ("activatedAt", VStr (activatedAt info));
         ("currentActivations", VNum (currentActivations info));
         ("maxActivations", VNum (maxActivations info));
         ("isValid", VBool (isValid info)) ].

(** The "getActivationStatus" listener registered in [setupWebView]
    (BEATCONNECT_ACTIVATION_ENABLED branch). *)
Definition onGetActivationStatus (p : Processor) (st : State) : State :=
  emitEventIfBrowserIsVisible st "activationState"
    (VObj [ ("isConfigured", VBool (hasActivationEnabled p));
            ("isActivated", VBool false) ]).

(** [sendActivationState], which [handleGetActivationStatus] calls. *)
Definition sendActivationState (p : Processor) (st : State) : State :=
  match getActivation p with
  | None => st
  | Some a =>
      let base := [ ("isConfigured", VBool (isConfigured a));
                    ("isActivated", VBool (isActivated a)) ] in
      let props := if isActivated a
                   then app base [("info", info_to_var (getActivationInfo a))]
                   else base in
      emitEventIfBrowserIsVisible st "activationState" (VObj props)
  end.

Definition handleGetActivationStatus (p : Processor) (st : State) : State :=
  sendActivationState p st.

(** [handleActivateLicense]: reads the code and calls [activation->activate]. *)
Definition handleActivateLicense (p : Processor) (data : var) (st : State) : State :=
  match getActivation p with
  | None => st
  | Some _ =>
      let code := var_toString (getProperty data "code" (VStr "")) in
      log_call st (CallActivate code)
  end.

(** [handleDeactivateLicense]: calls [activation->deactivate]. *)
Definition handleDeactivateLicense (p : Processor) (data : var) (st : State) : State :=
  match getActivation p with
  | None => st
  | Some _ => log_call st CallDeactivate
  end.

Definition enqueue (st : State) (t : Task) : State := set_queue st (msgQueue st ++ [t]).

(** The completion callback passed to [activate]: it only posts a task. *)
Definition activateCompletion (s : ActivationStatus) (info : ActivationInfo) (st : State) : State :=
  enqueue st (TActivationResult s info).

(** The completion callback passed to [deactivate]. *)
Definition deactivateCompletion (s : ActivationStatus) (st : State) : State :=
  enqueue st (TDeactivationResult s).

(** The body of a posted task, run on the message thread. *)
Definition runTask (t : Task) (st : State) : State :=
  match t with
  | TActivationResult s info =>
      let props := app [("status", VStr (statusToString s))]
                   (if isValidStatus s then [("info", info_to_var info)] else []) in
      emitEventIfBrowserIsVisible st "activationResult" (VObj props)
  | TDeactivationResult s =>
      emitEventIfBrowserIsVisible st "deactivationResult"
        (VObj [("status", VStr (statusToString s))])
  end.

(** The message loop dispatching the oldest posted task. *)
Definition runNextTask (st : State) : State :=
  match msgQueue st with
  | [] => st
  | t :: rest => runTask t (set_queue st rest)
  end.

(** ** Everything that can happen to a constructed editor *)

Inductive Op :=
| OpTick                                           (* timer fires *)
| OpGetActivationStatus (data : var)               (* page event *)
| OpActivateLicense (data : var)                   (* page event *)
| OpDeactivateLicense (data : var)                 (* page event *)
| OpActivateDone (s : ActivationStatus) (info : ActivationInfo)  (* SDK callback *)
| OpDeactivateDone (s : ActivationStatus)          (* SDK callback *)
| OpRunTask                                        (* message loop *)
| OpResized                                        (* host resizes the window *)
| OpSetVisible (b : bool).                         (* host shows or hides the page *)

Definition editor_op (p : Processor) (st : State) (op : Op) : State :=
  match op with
  | OpTick => snd (timerCallback p st)
  | OpGetActivationStatus _ => onGetActivationStatus p st
  | OpActivateLicense d => handleActivateLicense p d st
  | OpDeactivateLicense d => handleDeactivateLicense p d st
  | OpActivateDone s i => activateCompletion s i st
  | OpDeactivateDone s => deactivateCompletion s st
  | OpRunTask => runNextTask st
  | OpResized => st
  | OpSetVisible b =>
      match webView st with
      | Some _ => set_webView st (Some (mkView b))
      | None => st
      end
  end.

Definition run_ops (p : Processor) (ops : list Op) (st : State) : State :=
  fold_left (editor_op p) ops st.

(** ** The resource provider *)

Record Resource := mkResource { res_data : list Byte.byte; res_mime : string }.

(** The web-UI folder: [Some bytes] when [resourcesDir_.getChildFile (path)]
    exists as a file, with the bytes [loadFileAsData] reads. *)
Definition FileSystem := string -> option (list Byte.byte).

Fixpoint prefixb (p l : list ascii) : bool :=
  match p, l with
  | [], _ => true
  | c :: p', d :: l' => Ascii.eqb c d && prefixb p' l'
  | _ :: _, [] => false
  end.

(** [juce::String::endsWith]: compare the reversed strings from the front. *)
Definition endsWith (s suffix : string) : bool :=
  prefixb (rev (list_ascii_of_string suffix)) (rev (list_ascii_of_string s)).

(** The first lines of the provider lambda: strip one leading '/', and map
    the empty path to "index.html". *)
Definition normalizePath (url : string) : string :=
  let path := if String.prefix "/" url
              then String.substring 1 (String.length url - 1) url
              else url in
  if String.eqb path "" then "index.html" else path.

(** The MIME chain of the provider lambda. *)
Definition mimeTypeFor (path : string) : string :=
  if endsWith path ".html" then "text/html"
  else if endsWith path ".css" then "text/css"
  else if endsWith path ".js" then "application/javascript"
  else if endsWith path ".json" then "application/json"
  else if endsWith path ".png" then "image/png"
  else if endsWith path ".svg" then "image/svg+xml"
  else if endsWith path ".woff2" then "font/woff2"
  else "application/octet-stream".

(** The lambda given to [Options::withResourceProvider]. *)
Definition resourceProvider (fs : FileSystem) (url : string) : option Resource :=
  let path := normalizePath url in
  match fs path with
  | None => None
  | Some data => Some (mkResource data (mimeTypeFor path))
  end.

(** The spec's MIME inference, stated on file extensions: the extension of
    a path is the text after the last '.' of its last '/'-separated
    component, if that component has a '.'. *)
Fixpoint ext_rev (l : list ascii) : option (list ascii) :=
  match l with
  | [] => None
  | c :: t =>
      if Ascii.eqb c "." then Some []
      else if Ascii.eqb c "/" then None
      else option_map (cons c) (ext_rev t)
  end.

Definition file_extension (path : string) : option string :=
  option_map (fun e => string_of_list_ascii (rev e))
    (ext_rev (rev (list_ascii_of_string path))).

Definition spec_mime_table : list (string * string) :=
  [ ("html", "text/html"); ("css", "text/css");
    ("js", "application/javascript"); ("json", "application/json");
    ("png", "image/png"); ("svg", "image/svg+xml"); ("woff2", "font/woff2") ].

Fixpoint assoc_str (k : string) (t : list (string * string)) : option string :=
  match t with
  | [] => None
  | (k', v) :: rest => if String.eqb k' k then Some v else assoc_str k rest
  end.

Definition spec_mimeType (ext : option string) : string :=
  match ext with
  | Some e =>
      match assoc_str e spec_mime_table with
      | Some m => m
      | None => "application/octet-stream"
      end
  | None => "application/octet-stream"
  end.

(** ** Destruction *)

(** Data members of [OxideAudioProcessorEditor], in declaration order. *)
Inductive Member :=
| MProcessorRef
| MRelay (field : string)
| MAttachment (field : string)
| MWebView
| MResourcesDir
| MVisualizerTimer.

Definition Member_eq_dec (x y : Member) : {x = y} + {x <> y}.
Proof. decide equality; apply string_dec. Defined.

Definition editor_members : list Member :=
  [ MProcessorRef;
    MRelay "bitcrushRelay"; MRelay "downsampleRelay"; MRelay "noiseRelay";
    MRelay "crackleRelay"; MRelay "wobbleRelay"; MRelay "dropoutRelay";
    MRelay "saturationRelay"; MRelay "ageRelay"; MRelay "filterCutoffRelay";
    MRelay "filterResRelay"; MRelay "filterDriveRelay"; MRelay "modeRelay";
    MRelay "mixRelay"; MRelay "outputRelay"; MRelay "bypassRelay";
    MAttachment "bitcrushAttachment"; MAttachment "downsampleAttachment";
    MAttachment "noiseAttachment"; MAttachment "crackleAttachment";
    MAttachment "wobbleAttachment"; MAttachment "dropoutAttachment";
    MAttachment "saturationAttachment"; MAttachment "ageAttachment";
    MAttachment "filterCutoffAttachment"; MAttachment "filterResAttachment";
    MAttachment "filterDriveAttachment"; MAttachment "modeAttachment";
    MAttachment "mixAttachment"; MAttachment "outputAttachment";
    MAttachment "bypassAttachment";
    MWebView; MResourcesDir; MVisualizerTimer ].

Inductive DtorStep := StopTimer | Destroy (m : Member) | DestroyBase.

Definition DtorStep_eq_dec (x y : DtorStep) : {x = y} + {x <> y}.
Proof. decide equality; apply Member_eq_dec. Defined.

(** [~OxideAudioProcessorEditor]: the body stops the timer, then C++
    destroys the members in reverse declaration order, then the
    [AudioProcessorEditor] base. *)
Definition dtor_trace : list DtorStep :=
  [StopTimer] ++ map Destroy (rev editor_members) ++ [DestroyBase].

(** Position of the first occurrence. *)
Fixpoint index_of {A} (dec : forall x y : A, {x = y} + {x <> y}) (x : A) (l : list A)
  : option nat :=
  match l with
  | [] => None
  | y :: t => if dec x y then Some 0 else option_map S (index_of dec x t)
  end.

(** [x] occurs in [l], and its first occurrence is before that of [y]. *)
Definition before {A} (dec : forall x y : A, {x = y} + {x <> y}) (x y : A) (l : list A) : bool :=
  match index_of dec x l, index_of dec y l with
  | Some i, Some j => Nat.ltb i j
  | _, _ => false
  end.

(** ** Observations used in the statements *)

Definition view_visible (st : State) : bool :=
  match webView st with Some v => visible v | None => false end.

Definition count_named (name : string) (es : list Event) : nat :=
  length (filter (fun e => String.eqb (ev_name e) name) es).

Definition relay_count (k : ParamID) (st : State) : nat :=
  count_occ ParamID_eq_dec (map r_key (relays st)) k.

Definition attachment_count (k : ParamID) (st : State) : nat :=
  count_occ ParamID_eq_dec (map a_param (attachments st)) k.

Definition kinds_match (rk : RelayKind) (ak : AttachmentKind) : bool :=
  match rk, ak with
  | SliderRelay, SliderAttachment | ToggleRelay, ToggleAttachment => true
  | _, _ => false
  end.

Definition is_slider (r : Relay) : bool :=
  match r_kind r with SliderRelay => true | ToggleRelay => false end.

Fixpoint tick_n (p : Processor) (n : nat) (st : State) : State :=
  match n with
  | O => st
  | S n' => tick_n p n' (snd (timerCallback p st))
  end.

(** ** Auxiliary definitions and fixtures *)

Fixpoint nodupb {A} (dec : forall x y : A, {x = y} + {x <> y}) (l : list A) : bool :=
  match l with
  | [] => true
  | x :: t => negb (existsb (fun y => if dec x y then true else false) t) && nodupb dec t
  end.

(** An attachment names exactly one relay of [rs], for its key and class. *)
Definition binds_one (rs : list Relay) (a : Attachment) : bool :=
  match filter (fun r => String.eqb (r_field r) (a_relay a)) rs with
  | [r] => (if ParamID_eq_dec (r_key r) (a_param a) then true else false)
           && kinds_match (r_kind r) (a_kind a)
  | _ => false
  end.

Definition ext_char_ok (c : ascii) : bool :=
  negb (Ascii.eqb c ".") && negb (Ascii.eqb c "/").

(** A MIME chain over a suffix table, as the provider writes it. *)
Definition mime_chain (path : string) (tbl : list (string * string)) (dflt : string) : string :=
  fold_right (fun kv acc => if endsWith path (String "." (fst kv)) then snd kv else acc) dflt tbl.

Definition info0 : ActivationInfo :=
  mkActivationInfo "OXIDE-0001" "machine-1" "2026-01-01" 1 3 true.

(** A processor whose activation subsystem is configured and activated. *)
Definition proc_activated : Processor :=
  mkProcessor 0 0 0 0 (VNum 0) false 0 (Some (mkActivation true true info0)) true.

(** A processor without an activation subsystem. *)
Definition proc_no_activation : Processor :=
  mkProcessor 0 0 0 0 (VNum 0) false 0 None true.

(** ** Further definitions: resources folder, operation classes *)

(** File paths as lists of components. *)
Definition FilePath := list string.

(** [juce::File::getChildFile] with a plain name. *)
Definition getChildFile (d : FilePath) (name : string) : FilePath := d ++ [name].

(** [juce::File::getParentDirectory]. *)
Definition getParentDirectory (d : FilePath) : FilePath := removelast d.

(** The first lines of [setupWebView]: where [resourcesDir_] points. *)
Definition findResourcesDir (isDirectory : FilePath -> bool) (executableFile : FilePath) : FilePath :=
  let executableDir := getParentDirectory executableFile in
  let dir0 := getChildFile (getChildFile executableDir "Resources") "WebUI" in
  let dir1 := if negb (isDirectory dir0) then getChildFile executableDir "WebUI" else dir0 in
  if negb (isDirectory dir1)
  then getChildFile (getChildFile (getParentDirectory executableDir) "Resources") "WebUI"
  else dir1.

(** Page events that reach the activation subsystem. *)
Definition is_license_op (op : Op) : bool :=
  match op with
  | OpActivateLicense _ | OpDeactivateLicense _ => true
  | _ => false
  end.

(** The event a posted task emits. *)
Definition task_name (t : Task) : string :=
  match t with
  | TActivationResult _ _ => "activationResult"
  | TDeactivationResult _ => "deactivationResult"
  end.

(** The payload a posted task emits, as built in its [callAsync] body. *)
Definition task_payload (t : Task) : var :=
  match t with
  | TActivationResult s info =>
      VObj (app [("status", VStr (statusToString s))]
             (if isValidStatus s then [("info", info_to_var info)] else []))
  | TDeactivationResult s => VObj [("status", VStr (statusToString s))]
  end.

Definition task_event (t : Task) : Event := mkEvent (task_name t) (task_payload t).

(** [n] turns of the message loop. *)
Definition run_loop (n : nat) (st : State) : State := Nat.iter n runNextTask st.

(** ** Lemmas *)

Lemma nodupb_NoDup : forall A dec (l : list A), nodupb dec l = true -> NoDup l.
Proof.
  intros A dec l; induction l as [|x t IH]; simpl; intros H.
  - constructor.
  - apply andb_true_iff in H as [Hx Ht].
    constructor; [|exact (IH Ht)].
    intros Hin.
    assert (existsb (fun y => if dec x y then true else false) t = true) as Hex.
    { apply existsb_exists; exists x; split; [exact Hin|].
      destruct (dec x x) as [_|n]; [reflexivity|contradiction]. }
    rewrite Hex in Hx; discriminate.
Qed.

Lemma forallb_Forall : forall A (P : A -> Prop) (f : A -> bool) l,
  (forall x, f x = true -> P x) -> forallb f l = true -> Forall P l.
Proof.
  intros A P f l Hf Hl; apply Forall_forall; intros x Hx.
  apply Hf; exact (proj1 (forallb_forall f l) Hl x Hx).
Qed.

Lemma emit_frame : forall st n d,
  relays (emitEventIfBrowserIsVisible st n d) = relays st /\
  attachments (emitEventIfBrowserIsVisible st n d) = attachments st /\
  webView (emitEventIfBrowserIsVisible st n d) = webView st /\
  msgQueue (emitEventIfBrowserIsVisible st n d) = msgQueue st /\
  actCalls (emitEventIfBrowserIsVisible st n d) = actCalls st.
Proof.
  intros st n d; unfold emitEventIfBrowserIsVisible.
  destruct (webView st) as [[[|]]|] eqn:E; simpl; rewrite ?E; repeat split; reflexivity.
Qed.

Lemma emit_events : forall st n d,
  events (emitEventIfBrowserIsVisible st n d) =
  events st ++ (if view_visible st then [mkEvent n d] else []).
Proof.
  intros st n d; unfold emitEventIfBrowserIsVisible, view_visible.
  destruct (webView st) as [[[|]]|]; simpl; rewrite ?app_nil_r; reflexivity.
Qed.

Lemma emit_msgQueue : forall st n d,
  msgQueue (emitEventIfBrowserIsVisible st n d) = msgQueue st.
Proof. intros st n d; apply (emit_frame st n d). Qed.

Lemma view_visible_set_queue : forall st q, view_visible (set_queue st q) = view_visible st.
Proof. reflexivity. Qed.

Lemma runTask_emit : forall t st,
  runTask t st = emitEventIfBrowserIsVisible st (task_name t) (task_payload t).
Proof. intros [s info|s] st; reflexivity. Qed.

Lemma emit_set_queue : forall st q n d,
  emitEventIfBrowserIsVisible (set_queue st q) n d =
  set_queue (emitEventIfBrowserIsVisible st n d) q.
Proof.
  intros [] q n d; unfold emitEventIfBrowserIsVisible, set_queue, set_events; cbn.
  destruct webView0 as [[[|]]|]; reflexivity.
Qed.

Lemma set_queue_set_queue : forall st q q', set_queue (set_queue st q) q' = set_queue st q'.
Proof. intros [] q q'; reflexivity. Qed.

Lemma view_visible_emit : forall st n d,
  view_visible (emitEventIfBrowserIsVisible st n d) = view_visible st.
Proof. intros st n d; unfold view_visible; rewrite (proj1 (proj2 (proj2 (emit_frame st n d)))); reflexivity. Qed.

Lemma run_loop_step : forall n st, run_loop (S n) st = run_loop n (runNextTask st).
Proof.
  intros n; unfold run_loop; induction n as [|n IH]; intros st; [reflexivity|].
  change (Nat.iter (S (S n)) runNextTask st) with (runNextTask (Nat.iter (S n) runNextTask st)).
  rewrite IH; reflexivity.
Qed.

(** Draining a queue: as many loop turns as posted tasks run them all in
    order, each emitting its event if the page is visible. *)
Lemma run_loop_drain : forall ts st,
  events (run_loop (length ts) (set_queue st ts)) =
    events st ++ (if view_visible st then map task_event ts else []) /\
  msgQueue (run_loop (length ts) (set_queue st ts)) = [].
Proof.
  induction ts as [|t ts IH]; intros st.
  - cbn; destruct (view_visible st); rewrite ?app_nil_r; split; reflexivity.
  - change (length (t :: ts)) with (S (length ts)); rewrite run_loop_step.
    assert (runNextTask (set_queue st (t :: ts)) =
            set_queue (emitEventIfBrowserIsVisible st (task_name t) (task_payload t)) ts) as H.
    { unfold runNextTask; cbn [msgQueue set_queue].
      rewrite runTask_emit, <- emit_set_queue; destruct st; reflexivity. }
    rewrite H.
    destruct (IH (emitEventIfBrowserIsVisible st (task_name t) (task_payload t))) as [E Q].
    split; [|exact Q].
    rewrite E, view_visible_emit, emit_events, <- app_assoc.
    destruct (view_visible st); reflexivity.
Qed.

Lemma count_named_app : forall n xs ys,
  count_named n (xs ++ ys) = count_named n xs + count_named n ys.
Proof.
  intros n xs ys; unfold count_named; rewrite filter_app, length_app; reflexivity.
Qed.

Lemma editor_op_frame : forall p st op,
  relays (editor_op p st op) = relays st /\
  attachments (editor_op p st op) = attachments st.
Proof.
  intros p st op.
  destruct op; simpl;
    unfold timerCallback, onGetActivationStatus, handleActivateLicense,
      handleDeactivateLicense, activateCompletion, deactivateCompletion,
      runNextTask, runTask, enqueue;
    repeat match goal with
           | |- context [match ?x with _ => _ end] => destruct x
           end; simpl;
    try (split; reflexivity);
    repeat match goal with
           | |- context [emitEventIfBrowserIsVisible ?s ?n ?d] =>
               destruct (emit_frame s n d) as (-> & -> & _)
           end; split; reflexivity.
Qed.

Lemma run_ops_frame : forall p ops st,
  relays (run_ops p ops st) = relays st /\
  attachments (run_ops p ops st) = attachments st.
Proof.
  intros p ops; unfold run_ops; induction ops as [|op ops IH]; intros st; simpl.
  - split; reflexivity.
  - destruct (IH (editor_op p st op)) as [-> ->].
    exact (editor_op_frame p st op).
Qed.

Lemma binds_one_spec : forall rs a, binds_one rs a = true ->
  exists r, filter (fun r => String.eqb (r_field r) (a_relay a)) rs = [r] /\
            r_key r = a_param a /\ kinds_match (r_kind r) (a_kind a) = true.
Proof.
  intros rs a; unfold binds_one.
  destruct (filter _ rs) as [|r [|r' t]]; try discriminate.
  destruct (ParamID_eq_dec (r_key r) (a_param a)) as [E|]; simpl; [|discriminate].
  intros K; exists r; auto.
Qed.

(** ** Parameter bridge *)

(** C2: after construction and through any sequence of timer ticks, page
    events, activation callbacks, message-loop turns, resizes and
    visibility changes, each of the 15 keys has exactly one relay and
    exactly one (so at most one) attachment; 14 relays are sliders and one
    is a toggle; relay and attachment members are pairwise distinct; and
    every attachment names exactly one relay, built for the same key and of
    the matching class. *)
Theorem C2_one_relay_one_attachment_per_key : forall (p : Processor) (ops : list Op),
  let st := run_ops p ops construct in
  (forall k : ParamID, relay_count k st = 1) /\
  (forall k : ParamID, attachment_count k st = 1) /\
  length (filter is_slider (relays st)) = 14 /\
  length (filter (fun r => negb (is_slider r)) (relays st)) = 1 /\
  NoDup (map r_field (relays st)) /\
  NoDup (map a_field (attachments st)) /\
  Forall (fun a => exists r,
            filter (fun r => String.eqb (r_field r) (a_relay a)) (relays st) = [r] /\
            r_key r = a_param a /\ kinds_match (r_kind r) (a_kind a) = true)
         (attachments st).
Proof.
  intros p ops st; subst st.
  unfold relay_count, attachment_count.
  destruct (run_ops_frame p ops construct) as [-> ->].
  split; [intros k; destruct k; vm_compute; reflexivity|].
  split; [intros k; destruct k; vm_compute; reflexivity|].
  split; [vm_compute; reflexivity|].
  split; [vm_compute; reflexivity|].
  split; [apply (nodupb_NoDup _ string_dec); vm_compute; reflexivity|].
  split; [apply (nodupb_NoDup _ string_dec); vm_compute; reflexivity|].
  apply (forallb_Forall _ _ (binds_one (relays construct))).
  - apply binds_one_spec.
  - vm_compute; reflexivity.
Qed.

(** C3: in the constructor every relay is created, then registered with
    the browser Options ([withOptionsFrom]), before the browser component is
    built; every attachment is built after the browser component and after
    the relay it drives has been created and registered.  Each step occurs
    once, so "first occurrence" is "the" occurrence.  The component is built
    from exactly the relays created before it. *)
Theorem C3_construction_order :
  NoDup ctor_trace /\
  Forall (fun s =>
            match s with
            | MakeRelay r =>
                before CtorStep_eq_dec s (RegisterRelay (r_field r)) ctor_trace
                && before CtorStep_eq_dec (RegisterRelay (r_field r)) MakeWebView ctor_trace
                = true
            | MakeAttachment a =>
                before CtorStep_eq_dec MakeWebView s ctor_trace
                && before CtorStep_eq_dec (RegisterRelay (a_relay a)) s ctor_trace
                && existsb (fun r => String.eqb (r_field r) (a_relay a)) (relays construct)
                = true
            | _ => True
            end) ctor_trace /\
  optionsRelays construct = map r_field (relays construct).
Proof.
  split; [apply (nodupb_NoDup _ CtorStep_eq_dec); vm_compute; reflexivity|].
  split; [|reflexivity].
  apply (forallb_Forall _ _
           (fun s => match s with
                     | MakeRelay r =>
                         before CtorStep_eq_dec s (RegisterRelay (r_field r)) ctor_trace
                         && before CtorStep_eq_dec (RegisterRelay (r_field r)) MakeWebView ctor_trace
                     | MakeAttachment a =>
                         before CtorStep_eq_dec MakeWebView s ctor_trace
                         && before CtorStep_eq_dec (RegisterRelay (a_relay a)) s ctor_trace
                         && existsb (fun r => String.eqb (r_field r) (a_relay a)) (relays construct)
                     | _ => true
                     end)).
  - intros s H; destruct s; auto.
  - vm_compute; reflexivity.
Qed.

(** ** Destruction order *)

(** C4, as the claim states it, fails: the browser component is declared
    after every relay and attachment, so C++ destroys it before all of
    them; here it goes before [bitcrushRelay], which therefore outlives the
    view it feeds. *)
Lemma C4_view_destroyed_before_relays :
  before DtorStep_eq_dec (Destroy MWebView) (Destroy (MRelay "bitcrushRelay")) dtor_trace = true /\
  before DtorStep_eq_dec (Destroy (MRelay "bitcrushRelay")) (Destroy MWebView) dtor_trace = false /\
  ~ (forall f, In (MRelay f) editor_members ->
       before DtorStep_eq_dec (Destroy (MRelay f)) (Destroy MWebView) dtor_trace = true).
Proof.
  split; [vm_compute; reflexivity|].
  split; [vm_compute; reflexivity|].
  intros H.
  assert (In (MRelay "bitcrushRelay") editor_members) as Hin by (simpl; tauto).
  specialize (H _ Hin); vm_compute in H; discriminate.
Qed.

(** C4 (amended): destroying the editor first stops the timer, then
    releases the browser component, then every attachment, then every
    relay; each member is destroyed exactly once, so all relays and
    attachments are destroyed, after the browser component. *)
Theorem C4_destruction_order :
  NoDup dtor_trace /\
  before DtorStep_eq_dec StopTimer (Destroy MWebView) dtor_trace = true /\
  Forall (fun m =>
            match m with
            | MRelay _ | MAttachment _ =>
                before DtorStep_eq_dec (Destroy MWebView) (Destroy m) dtor_trace = true
            | _ => True
            end) editor_members /\
  Forall (fun m =>
            match m with
            | MAttachment a =>
                forallb (fun m' => match m' with
                                   | MRelay _ => before DtorStep_eq_dec (Destroy m) (Destroy m') dtor_trace
                                   | _ => true
                                   end) editor_members = true
            | _ => True
            end) editor_members /\
  length (filter (fun m => match m with MRelay _ => true | _ => false end) editor_members) = 15 /\
  length (filter (fun m => match m with MAttachment _ => true | _ => false end) editor_members) = 15 /\
  Forall (fun m => In (Destroy m) dtor_trace) editor_members.
Proof.
  split; [apply (nodupb_NoDup _ DtorStep_eq_dec); vm_compute; reflexivity|].
  split; [vm_compute; reflexivity|].
  split.
  { apply (forallb_Forall _ _
             (fun m => match m with
                       | MRelay _ | MAttachment _ =>
                           before DtorStep_eq_dec (Destroy MWebView) (Destroy m) dtor_trace
                       | _ => true
                       end)).
    - intros m H; destruct m; auto.
    - vm_compute; reflexivity. }
  split.
  { apply (forallb_Forall _ _
             (fun m => match m with
                       | MAttachment a =>
                           forallb (fun m' => match m' with
                                              | MRelay _ => before DtorStep_eq_dec (Destroy m) (Destroy m') dtor_trace
                                              | _ => true
                                              end) editor_members
                       | _ => true
                       end)).
    - intros m H; destruct m; auto.
    - vm_compute; reflexivity. }
  split; [reflexivity|].
  split; [reflexivity|].
  apply Forall_forall; intros m Hm.
  unfold dtor_trace; apply in_or_app; right; apply in_or_app; left.
  apply in_map, in_rev; rewrite rev_involutive; exact Hm.
Qed.

(** ** Visualizer feed *)

(** C1, as the claim states it, fails: with the browser component present
    but hidden, a tick still calls all seven metering accessors (the
    visibility test is inside [emitEventIfBrowserIsVisible]), although it
    emits nothing. *)
Lemma C1_hidden_tick_still_samples :
  let p := mkProcessor 1 2 3 4 (VNum 0) false 5 None false in
  let st := set_webView construct (Some (mkView false)) in
  view_visible st = false /\
  fst (timerCallback p st) =
    [ReadRMS; ReadPeak; ReadWobblePhase; ReadCrackleActivity; ReadMode;
     ReadBypassed; ReadDegradation] /\
  events (snd (timerCallback p st)) = events st.
Proof. vm_compute; repeat split; reflexivity. Qed.

Lemma tick_n_hidden_events : forall (p : Processor) (n : nat) (st : State),
  events (tick_n p n (set_webView st (Some (mkView false)))) = events st.
Proof.
  intros p n; induction n as [|n IH]; intros st; [reflexivity|].
  simpl; exact (IH st).
Qed.

(** C1 (amended): a tick with no browser component calls no accessor and
    leaves the state as it is; with a component it calls the seven
    accessors and appends exactly one visualizerData event, carrying the
    seven values, if the page is visible and no event if hidden; nothing
    else changes (no queued backlog).  Any number of ticks while hidden
    emits nothing. *)
Theorem C1_visualizer_tick : forall (p : Processor) (st : State),
  let '(reads, st') := timerCallback p st in
  reads = (match webView st with
           | None => []
           | Some _ => [ReadRMS; ReadPeak; ReadWobblePhase; ReadCrackleActivity;
                        ReadMode; ReadBypassed; ReadDegradation]
           end) /\
  events st' = events st ++
    (if view_visible st
     then [mkEvent "visualizerData"
             (VObj [ ("rms", VNum (getCurrentRMS p)); ("peak", VNum (getCurrentPeak p));
                     ("wobblePhase", VNum (getWobblePhase p));
                     ("crackleActivity", VNum (getCrackleActivity p));
                     ("mode", getCurrentMode p); ("bypassed", VBool (isBypassed p));
                     ("degradation", VNum (getDegradationAmount p)) ])]
     else []) /\
  count_named "visualizerData" (events st') =
    count_named "visualizerData" (events st) + (if view_visible st then 1 else 0) /\
  set_events st' (events st) = st /\
  (forall n, events (tick_n p n (set_webView st (Some (mkView false)))) = events st).
Proof.
  intros p st.
  assert (Hn := tick_n_hidden_events p).
  unfold timerCallback, view_visible.
  destruct (webView st) as [v|] eqn:E.
  - rewrite emit_events; unfold view_visible; rewrite E.
    split; [reflexivity|]; split; [reflexivity|].
    split.
    + rewrite count_named_app; destruct (visible v); reflexivity.
    + split; [|intros n; apply Hn].
      unfold emitEventIfBrowserIsVisible; rewrite E.
      destruct (visible v); destruct st; reflexivity.
  - rewrite app_nil_r, Nat.add_0_r.
    split; [reflexivity|]; split; [reflexivity|]; split; [reflexivity|].
    split; [destruct st; reflexivity|intros n; apply Hn].
Qed.


(** ** Resource provider *)

(** C5: the request "/" is served exactly as "/index.html", and a request
    yields "not found" ([None]) exactly when the file it resolves to does
    not exist; the provider is a total function, it never fails otherwise. *)
Theorem C5_root_is_index_and_missing_is_none : forall (fs : FileSystem) (url : string),
  resourceProvider fs "/" = resourceProvider fs "/index.html" /\
  (resourceProvider fs url = None <-> fs (normalizePath url) = None).
Proof.
  intros fs url; split; [reflexivity|].
  unfold resourceProvider; destruct (fs (normalizePath url)); split; congruence.
Qed.

Lemma prefixb_ext_rev : forall e l, forallb ext_char_ok e = true ->
  (prefixb (e ++ ["."%char]) l = true <-> ext_rev l = Some e).
Proof.
  induction e as [|a e IH]; intros l He; destruct l as [|c t]; cbn [prefixb ext_rev app].
  - split; discriminate.
  - rewrite andb_true_r.
    destruct (Ascii.eqb c ".") eqn:Ed.
    + apply Ascii.eqb_eq in Ed; subst c; split; reflexivity.
    + assert (Ascii.eqb "." c = false) as Ed'
        by (apply Ascii.eqb_neq; intros <-; rewrite Ascii.eqb_refl in Ed; discriminate).
      rewrite Ed'; destruct (Ascii.eqb c "/"); [split; discriminate|].
      destruct (ext_rev t); cbn [option_map]; split; discriminate.
  - split; discriminate.
  - simpl in He; apply andb_true_iff in He as [Ha He].
    unfold ext_char_ok in Ha; apply andb_true_iff in Ha as [Ha1 Ha2].
    apply negb_true_iff in Ha1, Ha2.
    destruct (Ascii.eqb c ".") eqn:Ed.
    + apply Ascii.eqb_eq in Ed; subst c; rewrite Ha1; cbn [andb].
      split; [discriminate|intros H; inversion H].
    + destruct (Ascii.eqb c "/") eqn:Es.
      * apply Ascii.eqb_eq in Es; subst c; rewrite Ha2; cbn [andb].
        split; discriminate.
      * rewrite andb_true_iff, (IH t He).
        destruct (ext_rev t) as [e'|]; cbn [option_map].
        -- split.
           ++ intros [Hac He']; apply Ascii.eqb_eq in Hac; subst; congruence.
           ++ intros H; inversion H; subst; split; [apply Ascii.eqb_refl|reflexivity].
        -- split; [intros [_ H]; discriminate|discriminate].
Qed.

Lemma forallb_rev : forall A (f : A -> bool) l, forallb f (rev l) = forallb f l.
Proof.
  intros A f l; apply Bool.eq_true_iff_eq; rewrite !forallb_forall.
  split; intros H x Hx; apply H.
  - apply in_rev; rewrite rev_involutive; exact Hx.
  - apply in_rev; exact Hx.
Qed.

(** [endsWith path ("." ++ suf)] tests exactly that [suf] is the path's
    extension, for a suffix with no '.' or '/'. *)
Lemma endsWith_file_extension : forall path suf,
  forallb ext_char_ok (list_ascii_of_string suf) = true ->
  (endsWith path (String "." suf) = true <-> file_extension path = Some suf).
Proof.
  intros path suf Hs; unfold endsWith, file_extension; simpl.
  rewrite (prefixb_ext_rev (rev (list_ascii_of_string suf))) by (rewrite forallb_rev; exact Hs).
  destruct (ext_rev (rev (list_ascii_of_string path))) as [e|]; simpl.
  - split; intros H; inversion H as [H']; subst.
    + rewrite rev_involutive, string_of_list_ascii_of_string; reflexivity.
    + f_equal; rewrite list_ascii_of_string_of_list_ascii, rev_involutive; reflexivity.
  - split; discriminate.
Qed.

Lemma mimeTypeFor_chain : forall path,
  mimeTypeFor path = mime_chain path spec_mime_table "application/octet-stream".
Proof. reflexivity. Qed.

Lemma mime_chain_extension : forall tbl path dflt,
  forallb (fun kv => forallb ext_char_ok (list_ascii_of_string (fst kv))) tbl = true ->
  mime_chain path tbl dflt =
  match file_extension path with
  | Some e => match assoc_str e tbl with Some m => m | None => dflt end
  | None => dflt
  end.
Proof.
  induction tbl as [|[k m] tbl IH]; intros path dflt Ht; simpl in *.
  - destruct (file_extension path) as [e|]; reflexivity.
  - apply andb_true_iff in Ht as [Hk Ht].
    destruct (endsWith path (String "." k)) eqn:E.
    + apply (endsWith_file_extension path k Hk) in E; rewrite E, String.eqb_refl; reflexivity.
    + rewrite (IH path dflt Ht).
      destruct (file_extension path) as [e|] eqn:Fe; [|reflexivity].
      destruct (String.eqb k e) eqn:Eke; [|reflexivity].
      apply String.eqb_eq in Eke; subst e.
      apply (endsWith_file_extension path k Hk) in Fe; congruence.
Qed.

Lemma mimeTypeFor_extension : forall path,
  mimeTypeFor path = spec_mimeType (file_extension path).
Proof.
  intros path; rewrite mimeTypeFor_chain, mime_chain_extension by (vm_compute; reflexivity).
  reflexivity.
Qed.

(** C6, as the claim states it, fails on the root request: "/" has no file
    extension, yet it is served as "index.html" with type text/html, not
    application/octet-stream. *)
Lemma C6_root_request_is_html :
  let fs : FileSystem := fun p => if String.eqb p "index.html" then Some [] else None in
  option_map res_mime (resourceProvider fs "/") = Some "text/html" /\
  file_extension "/" = None /\
  spec_mimeType (file_extension "/") = "application/octet-stream".
Proof. vm_compute; repeat split; reflexivity. Qed.

(** C6 (amended): an existing file is served with the MIME type of the
    extension of the resolved path (the request with one leading '/'
    stripped, and the empty path read as "index.html"): html, css, js,
    json, png, svg and woff2 map to their types, compared case-sensitively,
    and any other or no extension to application/octet-stream. *)
Theorem C6_mime_by_resolved_extension : forall (fs : FileSystem) (url : string),
  resourceProvider fs url =
  option_map (fun d => mkResource d (spec_mimeType (file_extension (normalizePath url))))
             (fs (normalizePath url)).
Proof.
  intros fs url; unfold resourceProvider.
  rewrite mimeTypeFor_extension.
  destruct (fs (normalizePath url)); reflexivity.
Qed.

(** ** License activation *)

(** C7 (code defect): with the subsystem configured and activated and the
    page visible, the "getActivationStatus" page event answers
    isActivated = false with no info: the listener hard-codes false and
    never consults the subsystem, whereas [handleGetActivationStatus] /
    [sendActivationState], which the listener does not call, reports the
    current state. *)
Theorem C7_status_listener_reports_not_activated :
  events (editor_op proc_activated construct (OpGetActivationStatus VVoid)) =
    [mkEvent "activationState"
       (VObj [("isConfigured", VBool true); ("isActivated", VBool false)])] /\
  events (handleGetActivationStatus proc_activated construct) =
    [mkEvent "activationState"
       (VObj [("isConfigured", VBool true); ("isActivated", VBool true);
              ("info", info_to_var info0)])] /\
  actCalls (editor_op proc_activated construct (OpGetActivationStatus VVoid)) = [].
Proof. vm_compute; repeat split; reflexivity. Qed.

(** C8, as the claim states it, fails: when the page is hidden at the time
    the posted task runs, the result event is dropped by
    [emitEventIfBrowserIsVisible]; an "Invalid" activation and a network
    error on deactivation both end with no event. *)
Lemma C8_hidden_page_drops_results :
  let st := set_webView construct (Some (mkView false)) in
  events (runNextTask (activateCompletion Invalid info0 st)) = [] /\
  msgQueue (runNextTask (activateCompletion Invalid info0 st)) = [] /\
  events (runNextTask (deactivateCompletion NetworkError st)) = [] /\
  msgQueue (runNextTask (deactivateCompletion NetworkError st)) = [].
Proof. vm_compute; repeat split; reflexivity. Qed.

(** C8 (amended): every outcome handed to the activate or deactivate
    completion callback appends exactly one task behind the tasks already
    posted to the message thread, keeping them, and emits nothing by
    itself; running one loop turn removes only the oldest task; once the
    loop has run the pending tasks and this one, the queue is empty and the
    events gained are those of the pending tasks followed by exactly one
    activationResult (resp. deactivationResult) event if the page is
    visible, and none if it is hidden. *)
Theorem C8_one_result_per_outcome : forall (s : ActivationStatus) (info : ActivationInfo) (st : State),
  let q := msgQueue st in
  let pending := if view_visible st then map task_event q else [] in
  let ta := TActivationResult s info in
  let td := TDeactivationResult s in
  ev_name (task_event ta) = "activationResult" /\
  ev_name (task_event td) = "deactivationResult" /\
  msgQueue (activateCompletion s info st) = q ++ [ta] /\
  events (activateCompletion s info st) = events st /\
  msgQueue (runNextTask (activateCompletion s info st)) = tl (q ++ [ta]) /\
  msgQueue (run_loop (length q + 1) (activateCompletion s info st)) = [] /\
  events (run_loop (length q + 1) (activateCompletion s info st)) =
    events st ++ pending ++ (if view_visible st then [task_event ta] else []) /\
  msgQueue (deactivateCompletion s st) = q ++ [td] /\
  events (deactivateCompletion s st) = events st /\
  msgQueue (runNextTask (deactivateCompletion s st)) = tl (q ++ [td]) /\
  msgQueue (run_loop (length q + 1) (deactivateCompletion s st)) = [] /\
  events (run_loop (length q + 1) (deactivateCompletion s st)) =
    events st ++ pending ++ (if view_visible st then [task_event td] else []).
Proof.
  intros s info st q pending ta td; subst q pending ta td.
  unfold activateCompletion, deactivateCompletion, enqueue.
  replace (length (msgQueue st) + 1) with (length (msgQueue st ++ [TActivationResult s info]))
    at 1 2 by (rewrite length_app; reflexivity).
  replace (length (msgQueue st) + 1) with (length (msgQueue st ++ [TDeactivationResult s]))
    by (rewrite length_app; reflexivity).
  destruct (run_loop_drain (msgQueue st ++ [TActivationResult s info]) st) as [Ea Qa].
  destruct (run_loop_drain (msgQueue st ++ [TDeactivationResult s]) st) as [Ed Qd].
  rewrite Ea, Qa, Ed, Qd.
  destruct (view_visible st); rewrite ?map_app, ?app_nil_r;
    unfold runNextTask; cbn [msgQueue set_queue];
    destruct (msgQueue st) as [|t0 rest];
    cbn [app tl]; rewrite ?runTask_emit, ?emit_msgQueue; cbn [msgQueue set_queue];
    repeat split; reflexivity.
Qed.

(** C9: without an activation subsystem, handling activateLicense or
    deactivateLicense and sending the activation state leave the editor
    state untouched: no call into the subsystem, no event, no task. *)
Theorem C9_null_activation_is_noop : forall (p : Processor) (data : var) (st : State),
  getActivation p = None ->
  handleActivateLicense p data st = st /\
  handleDeactivateLicense p data st = st /\
  sendActivationState p st = st.
Proof.
  intros p data st Hn; unfold handleActivateLicense, handleDeactivateLicense, sendActivationState.
  rewrite Hn; repeat split; reflexivity.
Qed.

Lemma C9_null_activation_is_noop_witness :
  getActivation proc_no_activation = None /\
  handleActivateLicense proc_no_activation (VObj [("code", VStr "ABC")]) construct = construct /\
  handleDeactivateLicense proc_no_activation (VObj [("code", VStr "ABC")]) construct = construct /\
  sendActivationState proc_no_activation construct = construct.
Proof.
  split; [reflexivity|].
  apply (C9_null_activation_is_noop proc_no_activation); reflexivity.
Defined.

(** C10: with an activation subsystem, an activateLicense payload without a
    "code" property (or a payload that is not an object), or whose "code"
    is void (JSON null), calls [activate] with the empty string, and emits
    nothing. *)
Theorem C10_missing_code_defaults_to_empty : forall (p : Processor) (a : Activation) (data : var) (st : State),
  getActivation p = Some a ->
  lookupProperty data "code" = None \/ lookupProperty data "code" = Some VVoid ->
  actCalls (handleActivateLicense p data st) = actCalls st ++ [CallActivate ""] /\
  events (handleActivateLicense p data st) = events st /\
  msgQueue (handleActivateLicense p data st) = msgQueue st.
Proof.
  intros p a data st Ha Hcode; unfold handleActivateLicense, getProperty.
  rewrite Ha.
  destruct Hcode as [-> | ->]; repeat split; reflexivity.
Qed.

Lemma C10_missing_code_defaults_to_empty_witness :
  actCalls (handleActivateLicense proc_activated (VObj [("license", VStr "X")]) construct) =
    [CallActivate ""] /\
  actCalls (handleActivateLicense proc_activated (VObj [("code", VVoid)]) construct) =
    [CallActivate ""].
Proof.
  split.
  - apply (C10_missing_code_defaults_to_empty proc_activated (mkActivation true true info0)
             (VObj [("license", VStr "X")]) construct); [reflexivity|left; reflexivity].
  - apply (C10_missing_code_defaults_to_empty proc_activated (mkActivation true true info0)
             (VObj [("code", VVoid)]) construct); [reflexivity|right; reflexivity].
Defined.

(** ** Further properties of the editor *)

Lemma emit_eq : forall st n d,
  emitEventIfBrowserIsVisible st n d =
  set_events st (events st ++ (if view_visible st then [mkEvent n d] else [])).
Proof.
  intros st n d; unfold emitEventIfBrowserIsVisible, view_visible.
  destruct (webView st) as [[[|]]|]; [reflexivity| |];
    destruct st; unfold set_events; simpl; rewrite app_nil_r; reflexivity.
Qed.

Ltac op_unfold :=
  unfold editor_op, timerCallback, onGetActivationStatus, handleActivateLicense,
    handleDeactivateLicense, activateCompletion, deactivateCompletion,
    runNextTask, runTask, enqueue, set_webView, set_queue, log_call;
  rewrite ?emit_eq.

Lemma editor_op_shape : forall p st op,
  listeners (editor_op p st op) = listeners st /\
  optionsRelays (editor_op p st op) = optionsRelays st /\
  timerRunning (editor_op p st op) = timerRunning st /\
  (webView st <> None -> webView (editor_op p st op) <> None) /\
  (exists es, events (editor_op p st op) = events st ++ es /\ length es <= 1) /\
  length (actCalls (editor_op p st op)) =
    length (actCalls st) +
    (if is_license_op op then match getActivation p with Some _ => 1 | None => 0 end else 0).
Proof.
  intros p st op; destruct op; op_unfold;
    repeat match goal with
           | |- context [match ?x with _ => _ end] => destruct x eqn:?
           end;
    destruct st; cbn in *;
    rewrite ?emit_eq; unfold set_events, view_visible; cbn;
    try (destruct webView0 as [[[|]]|]; cbn);
    repeat split; try congruence;
    try (rewrite length_app; simpl; lia);
    try lia;
    first
      [ exists []; rewrite app_nil_r; split; [reflexivity|simpl; lia]
      | eexists; split; [reflexivity|simpl; lia]
      | idtac ].
Qed.

Lemma run_ops_shape : forall p ops st,
  listeners (run_ops p ops st) = listeners st /\
  optionsRelays (run_ops p ops st) = optionsRelays st /\
  timerRunning (run_ops p ops st) = timerRunning st /\
  (webView st <> None -> webView (run_ops p ops st) <> None) /\
  (exists es, events (run_ops p ops st) = events st ++ es /\ length es <= length ops) /\
  length (actCalls (run_ops p ops st)) =
    length (actCalls st) +
    match getActivation p with Some _ => length (filter is_license_op ops) | None => 0 end.
Proof.
  intros p ops; unfold run_ops; induction ops as [|op ops IH]; intros st; simpl.
  - repeat split; auto.
    + exists []; rewrite app_nil_r; split; [reflexivity|simpl; lia].
    + destruct (getActivation p); lia.
  - destruct (editor_op_shape p st op) as (L & O & T & W & (es1 & E1 & H1) & A).
    destruct (IH (editor_op p st op)) as (L' & O' & T' & W' & (es2 & E2 & H2) & A').
    repeat split.
    + congruence.
    + congruence.
    + congruence.
    + intros Hw; apply W', W, Hw.
    + exists (es1 ++ es2); split.
      * rewrite E2, E1, app_assoc; reflexivity.
      * rewrite length_app; lia.
    + rewrite A', A; destruct (is_license_op op), (getActivation p); simpl; lia.
Qed.

(** X1: once constructed, through any sequence of ticks, page events,
    activation callbacks, message-loop turns, resizes and visibility
    changes, the browser component stays present, the timer keeps running,
    and the registered relays and event listeners stay those of the
    constructor. *)
Theorem X1_constructed_editor_keeps_view_and_timer : forall (p : Processor) (ops : list Op),
  webView (run_ops p ops construct) <> None /\
  timerRunning (run_ops p ops construct) = true /\
  listeners (run_ops p ops construct) =
    ["getActivationStatus"; "activateLicense"; "deactivateLicense"] /\
  optionsRelays (run_ops p ops construct) = map r_field (relays construct).
Proof.
  intros p ops.
  destruct (run_ops_shape p ops construct) as (L & O & T & W & _ & _).
  repeat split.
  - apply W; discriminate.
  - rewrite T; reflexivity.
  - rewrite L; reflexivity.
  - rewrite O; reflexivity.
Qed.

(** X2: the page's event log only grows: any sequence of operations
    appends events to what was already emitted, never removes or reorders
    it, and appends at most one event per operation. *)
Theorem X2_events_append_only : forall (p : Processor) (ops : list Op) (st : State),
  exists es, events (run_ops p ops st) = events st ++ es /\ length es <= length ops.
Proof. intros p ops st; apply (run_ops_shape p ops st). Qed.

(** X3: calls into the activation subsystem come only from activateLicense
    and deactivateLicense page events: with a subsystem each such event
    makes exactly one call, and without one no operation makes any. *)
Theorem X3_activation_calls_counted : forall (p : Processor) (ops : list Op) (st : State),
  length (actCalls (run_ops p ops st)) =
    length (actCalls st) +
    match getActivation p with Some _ => length (filter is_license_op ops) | None => 0 end.
Proof. intros p ops st; apply (run_ops_shape p ops st). Qed.

(** X4: with an activation subsystem, [sendActivationState] emits (if the
    page is visible) one activationState event whose isConfigured and
    isActivated fields are the subsystem's, and which carries an info
    object, the subsystem's activation info, exactly when it is activated;
    nothing else changes. *)
Theorem X4_activation_state_payload : forall (p : Processor) (a : Activation) (st : State),
  getActivation p = Some a ->
  exists payload,
    sendActivationState p st =
      set_events st (events st ++ (if view_visible st then [mkEvent "activationState" payload] else [])) /\
    lookupProperty payload "isConfigured" = Some (VBool (isConfigured a)) /\
    lookupProperty payload "isActivated" = Some (VBool (isActivated a)) /\
    lookupProperty payload "info" =
      (if isActivated a then Some (info_to_var (getActivationInfo a)) else None).
Proof.
  intros p a st Ha; unfold sendActivationState; rewrite Ha.
  eexists; rewrite emit_eq; split; [reflexivity|].
  destruct (isActivated a); cbn; repeat split; reflexivity.
Qed.

Lemma X4_activation_state_payload_witness :
  exists payload,
    sendActivationState proc_activated construct =
      set_events construct
        (events construct ++
         (if view_visible construct then [mkEvent "activationState" payload] else [])) /\
    lookupProperty payload "isConfigured" = Some (VBool true) /\
    lookupProperty payload "isActivated" = Some (VBool true) /\
    lookupProperty payload "info" = Some (info_to_var info0).
Proof.
  exact (X4_activation_state_payload proc_activated (mkActivation true true info0) construct
           eq_refl).
Defined.

(** X5: a posted activation task emits (if the page is visible) one
    activationResult event with the status string, carrying the activation
    info exactly when the status is Valid; a posted deactivation task emits
    one deactivationResult event with the status string and no info.
    Nothing else changes. *)
Theorem X5_result_payloads : forall (s : ActivationStatus) (info : ActivationInfo) (st : State),
  (exists payload,
     runTask (TActivationResult s info) st =
       set_events st (events st ++ (if view_visible st then [mkEvent "activationResult" payload] else [])) /\
     lookupProperty payload "status" = Some (VStr (statusToString s)) /\
     lookupProperty payload "info" = (if isValidStatus s then Some (info_to_var info) else None)) /\
  (exists payload,
     runTask (TDeactivationResult s) st =
       set_events st (events st ++ (if view_visible st then [mkEvent "deactivationResult" payload] else [])) /\
     lookupProperty payload "status" = Some (VStr (statusToString s)) /\
     lookupProperty payload "info" = None).
Proof.
  intros s info st; split; eexists; unfold runTask; rewrite emit_eq; split; try reflexivity.
  - destruct (isValidStatus s); cbn; split; reflexivity.
  - cbn; split; reflexivity.
Qed.

(** X6: the "getActivationStatus" listener never consults the activation
    subsystem: its effect is the same whatever [getActivation] returns, a
    null handle included, and it always emits (if the page is visible) one
    activationState event with isConfigured = hasActivationEnabled,
    isActivated = false and no info. *)
Theorem X6_status_listener_ignores_handle : forall (p : Processor) (act : option Activation) (st : State),
  onGetActivationStatus
    (mkProcessor (getCurrentRMS p) (getCurrentPeak p) (getWobblePhase p)
       (getCrackleActivity p) (getCurrentMode p) (isBypassed p)
       (getDegradationAmount p) act (hasActivationEnabled p)) st =
  onGetActivationStatus p st /\
  exists payload,
    onGetActivationStatus p st =
      set_events st (events st ++ (if view_visible st then [mkEvent "activationState" payload] else [])) /\
    lookupProperty payload "isConfigured" = Some (VBool (hasActivationEnabled p)) /\
    lookupProperty payload "isActivated" = Some (VBool false) /\
    lookupProperty payload "info" = None.
Proof.
  intros p act st; split; [reflexivity|].
  eexists; unfold onGetActivationStatus; rewrite emit_eq; split; [reflexivity|].
  cbn; repeat split; reflexivity.
Qed.

(** X7: the message loop runs posted tasks first-in first-out: starting
    from a queue of tasks, as many loop turns as there are tasks empty the
    queue and append, if the page is visible, one result event per task in
    queue order (none if hidden). *)
Theorem X7_message_queue_fifo : forall (ts : list Task) (st : State),
  exists es,
    events (run_loop (length ts) (set_queue st ts)) = events st ++ es /\
    map ev_name es = (if view_visible st then map task_name ts else []) /\
    msgQueue (run_loop (length ts) (set_queue st ts)) = [].
Proof.
  induction ts as [|t ts IH]; intros st.
  - exists []; rewrite app_nil_r; destruct (view_visible st); repeat split; reflexivity.
  - change (length (t :: ts)) with (S (length ts)); rewrite run_loop_step.
    set (st1 := set_events st (events st ++
                  (if view_visible st then [mkEvent (task_name t)
                     (match t with
                      | TActivationResult s info =>
                          VObj (app [("status", VStr (statusToString s))]
                                 (if isValidStatus s then [("info", info_to_var info)] else []))
                      | TDeactivationResult s => VObj [("status", VStr (statusToString s))]
                      end)] else []))).
    assert (runNextTask (set_queue st (t :: ts)) = set_queue st1 ts) as Hstep.
    { unfold runNextTask; cbn [msgQueue set_queue]; unfold runTask.
      destruct t; rewrite emit_eq; destruct st; reflexivity. }
    rewrite Hstep.
    destruct (IH st1) as (es & E & N & Q).
    assert (view_visible st1 = view_visible st) as V by (destruct st; reflexivity).
    rewrite V in N.
    exists ((if view_visible st then [mkEvent (task_name t) (match t with
                      | TActivationResult s info =>
                          VObj (app [("status", VStr (statusToString s))]
                                 (if isValidStatus s then [("info", info_to_var info)] else []))
                      | TDeactivationResult s => VObj [("status", VStr (statusToString s))]
                      end)] else []) ++ es).
    split; [|split].
    + rewrite E; subst st1; cbn [events set_events]; rewrite app_assoc; reflexivity.
    + rewrite map_app, N; destruct (view_visible st); reflexivity.
    + exact Q.
Qed.

(** X8: with an activation subsystem, a string "code" property of the
    activateLicense payload is passed to [activate] unchanged. *)
Theorem X8_activate_passes_code : forall (p : Processor) (a : Activation) (data : var) (code : string) (st : State),
  getActivation p = Some a ->
  lookupProperty data "code" = Some (VStr code) ->
  actCalls (handleActivateLicense p data st) = actCalls st ++ [CallActivate code].
Proof.
  intros p a data code st Ha Hc; unfold handleActivateLicense, getProperty.
  rewrite Ha, Hc; reflexivity.
Qed.

Lemma X8_activate_passes_code_witness :
  actCalls (handleActivateLicense proc_activated
              (VObj [("code", VStr "OXIDE-ABCD-1234")]) construct) =
    [CallActivate "OXIDE-ABCD-1234"].
Proof.
  exact (X8_activate_passes_code proc_activated (mkActivation true true info0)
           (VObj [("code", VStr "OXIDE-ABCD-1234")]) "OXIDE-ABCD-1234" construct
           eq_refl eq_refl).
Defined.

(** X9: the license request handlers never emit an event or post a task
    themselves (results arrive only through the completion callbacks), and
    [handleDeactivateLicense] ignores its payload. *)
Theorem X9_license_handlers_emit_nothing : forall (p : Processor) (data : var) (st : State),
  events (handleActivateLicense p data st) = events st /\
  msgQueue (handleActivateLicense p data st) = msgQueue st /\
  events (handleDeactivateLicense p data st) = events st /\
  msgQueue (handleDeactivateLicense p data st) = msgQueue st /\
  handleDeactivateLicense p data st = handleDeactivateLicense p VVoid st.
Proof.
  intros p data st; unfold handleActivateLicense, handleDeactivateLicense.
  destruct (getActivation p); repeat split; reflexivity.
Qed.

Lemma substring_0_length : forall s, String.substring 0 (String.length s) s = s.
Proof. induction s as [|c s IH]; simpl; [reflexivity|rewrite IH; reflexivity]. Qed.

(** X10: the provider never looks up the empty path: the empty request and
    "/" become "index.html"; a request starting with '/' loses exactly that
    one character (so "//x" becomes "/x"); any other request is used as
    it is. *)
Theorem X10_normalizePath_cases : forall (url : string),
  normalizePath url <> "" /\
  normalizePath "" = "index.html" /\
  forall (c : ascii) (rest : string),
    normalizePath (String c rest) =
      if Ascii.eqb c "/"
      then (if String.eqb rest "" then "index.html" else rest)
      else String c rest.
Proof.
  intros url; split; [|split; [reflexivity|]].
  - unfold normalizePath.
    destruct (String.eqb _ "") eqn:E; [discriminate|].
    intros H; rewrite H in E; discriminate.
  - intros c rest; unfold normalizePath; cbn [String.prefix String.length].
    destruct (ascii_dec "/" c) as [<-|n].
    + rewrite Ascii.eqb_refl; cbn [String.substring].
      assert (String.prefix "" rest = true) as P by (destruct rest; reflexivity).
      rewrite P.
      replace (S (String.length rest) - 1) with (String.length rest) by lia.
      rewrite substring_0_length; reflexivity.
    + assert (Ascii.eqb c "/" = false) as E by (apply Ascii.eqb_neq; auto).
      rewrite E; reflexivity.
Qed.

(** X11: [resourcesDir_] is the first of <exe dir>/Resources/WebUI,
    <exe dir>/WebUI and <exe dir>/../Resources/WebUI that is a directory,
    and the last of them when none is. *)
Theorem X11_resources_dir_first_existing : forall (isDirectory : FilePath -> bool) (exe : FilePath),
  let exeDir := getParentDirectory exe in
  let c1 := getChildFile (getChildFile exeDir "Resources") "WebUI" in
  let c2 := getChildFile exeDir "WebUI" in
  let c3 := getChildFile (getChildFile (getParentDirectory exeDir) "Resources") "WebUI" in
  findResourcesDir isDirectory exe =
    match find isDirectory [c1; c2; c3] with Some d => d | None => c3 end.
Proof.
  intros isDirectory exe exeDir c1 c2 c3; unfold findResourcesDir; fold exeDir c1 c2 c3.
  cbn [find]; destruct (isDirectory c1) eqn:E1; cbn [negb].
  - rewrite E1; reflexivity.
  - destruct (isDirectory c2); cbn [negb]; [reflexivity|].
    destruct (isDirectory c3); reflexivity.
Qed.
